(** * botocore.exceptions: the error taxonomy and its rendering contract

    A shallow embedding of [botocore/exceptions.py].  The module consists of
    the base class [BotoCoreError], whose [__init__] renders the class
    attribute [fmt] with the keyword arguments and keeps them in
    [self.kwargs], and of twenty-two subclasses that only override [fmt].

    The Python builtins the three lines of [__init__] rely on are modelled
    in [Module Py]: values and their [str]/[repr], the keyword dictionary
    (a [gmap string value]), [str.format( **kwargs)] and
    [BaseException.__str__]. *)

From Stdlib Require Import ZArith Ascii String List.
From stdpp Require Import base option list strings pretty gmap.

Local Open Scope string_scope.

Module Py.

(** ** Values

    The objects that reach a keyword argument of an error: [None], booleans,
    integers, text and lists of those.  Text is a sequence of code points
    below 256. *)
#[warnings="-register-all"]
Inductive value : Type :=
  | VNone
  | VBool (b : bool)
  | VInt (z : Z)
  | VStr (s : string)
  | VList (l : list value).

(** [sep.join(parts)] *)
Fixpoint join (sep : string) (parts : list string) : string :=
  match parts with
  | [] => EmptyString
  | [p] => p
  | p :: rest => p +:+ sep +:+ join sep rest
  end.

Definition squote : ascii := "'"%char.
Definition dquote : ascii := ascii_of_nat 34.
Definition backslash : ascii := "\"%char.

Fixpoint has_char (c : ascii) (s : string) : bool :=
  match s with
  | EmptyString => false
  | String d s' => if decide (d = c) then true else has_char c s'
  end.

Definition hex_digit (n : nat) : ascii :=
  match n with
  | 0 => "0" | 1 => "1" | 2 => "2" | 3 => "3" | 4 => "4" | 5 => "5"
  | 6 => "6" | 7 => "7" | 8 => "8" | 9 => "9" | 10 => "a" | 11 => "b"
  | 12 => "c" | 13 => "d" | 14 => "e" | _ => "f"
  end%char.

(** [\xhh] *)
Definition hex_escape (c : ascii) : string :=
  let n := nat_of_ascii c in
  String backslash (String "x" (String (hex_digit (n / 16)%nat)
    (String (hex_digit (n mod 16)%nat) EmptyString))).

(** Code points below 256 that [repr] copies unchanged: the printable ones,
    i.e. everything but the controls (0-31, 127-159), the no-break space 160
    and the soft hyphen 173. *)
Definition printable (c : ascii) : bool :=
  let n := nat_of_ascii c in
  ((32 <=? n) && negb ((127 <=? n) && (n <=? 160)) && negb (n =? 173))%nat.

(** One character of [repr(str)], for the chosen quote. *)
Definition repr_char (quote c : ascii) : string :=
  if decide (c = quote) then String backslash (String c EmptyString)
  else if decide (c = backslash) then String backslash (String c EmptyString)
  else if decide (c = ascii_of_nat 9) then String backslash "t"
  else if decide (c = ascii_of_nat 10) then String backslash "n"
  else if decide (c = ascii_of_nat 13) then String backslash "r"
  else if printable c then String c EmptyString
  else hex_escape c.

Fixpoint repr_chars (quote : ascii) (s : string) : string :=
  match s with
  | EmptyString => EmptyString
  | String c s' => repr_char quote c +:+ repr_chars quote s'
  end.

(** [repr] of a [str]: single quotes, unless the text has a single quote and
    no double quote. *)
Definition repr_str (s : string) : string :=
  let quote := if has_char squote s && negb (has_char dquote s)
               then dquote else squote in
  String quote (repr_chars quote s +:+ String quote EmptyString).

(** [repr(v)] *)
Fixpoint repr (v : value) : string :=
  match v with
  | VNone => "None"
  | VBool true => "True"
  | VBool false => "False"
  | VInt z => pretty z
  | VStr s => repr_str s
  | VList l => "[" +:+ join ", " (map repr l) +:+ "]"
  end.

(** [str(v)], which is also [format(v, '')]: text is itself, everything else
    is its [repr]. *)
Definition str (v : value) : string :=
  match v with
  | VStr s => s
  | _ => repr v
  end.

(** ** Exceptions and outcomes of a call *)
Inductive exn : Type :=
  | KeyError (key : string)
  | IndexError
  | ValueError (msg : string)
  | AttributeError (name : string)
  | TypeError.

(** A call returns, raises, or leaves the part of the language modelled
    here. *)
Inductive outcome (A : Type) : Type :=
  | Return (a : A)
  | Raise (e : exn)
  | Unmodelled.
Arguments Return {A} a.
Arguments Raise {A} e.
Arguments Unmodelled {A}.

Definition bind {A B} (o : outcome A) (k : A → outcome B) : outcome B :=
  match o with
  | Return a => k a
  | Raise e => Raise e
  | Unmodelled => Unmodelled
  end.

Definition lift {A B} (f : A → B) (o : outcome A) : outcome B :=
  bind o (λ a, Return (f a)).

(** ** [str.format( **kwargs)]

    The format string is read left to right.  [{{] and [}}] stand for one
    brace; [{name}] is a replacement field.  A field is looked up and
    rendered as soon as its closing brace is read, so a fault of an earlier
    field comes before a fault further right.  Conversions ([!r]), format
    specifications ([:spec]) and attribute or index access ([a.b], [a[0]])
    are not modelled: a field that has one is [Unmodelled]. *)

Definition lbrace : ascii := "{"%char.
Definition rbrace : ascii := "}"%char.

(** The largest index a field may name ([PY_SSIZE_T_MAX], 64 bit). *)
Definition PY_SSIZE_T_MAX : Z := 2 ^ 63 - 1.

Definition digit_value (c : ascii) : option Z :=
  let n := nat_of_ascii c in
  if ((48 <=? n) && (n <=? 57))%nat then Some (Z.of_nat n - 48)%Z else None.

(** Is the field name a decimal index?  [Return None] if it is not
    ([get_integer] returning -1 without an error). *)
Fixpoint get_integer_from (acc : Z) (s : string) : outcome (option Z) :=
  match s with
  | EmptyString => Return (Some acc)
  | String c s' =>
      match digit_value c with
      | None => Return None
      | Some d =>
          if (acc >? (PY_SSIZE_T_MAX - d) `div` 10)%Z
          then Raise (ValueError "Too many decimal digits in format string")
          else get_integer_from (acc * 10 + d)%Z s'
      end
  end.

Definition get_integer (s : string) : outcome (option Z) :=
  match s with
  | EmptyString => Return None
  | _ => get_integer_from 0 s
  end.

(** The object a field name stands for, when [format] is called with keyword
    arguments only: an empty name is the next automatic index and a decimal
    name an explicit one, both out of range of the empty argument tuple; any
    other name is a key of [kwargs]. *)
Definition get_field_object (kwargs : gmap string value) (name : string)
  : outcome value :=
  bind (get_integer name) (λ idx,
    match idx with
    | Some _ => Raise IndexError
    | None =>
        match name with
        | EmptyString => Raise IndexError
        | _ => match kwargs !! name with
               | Some v => Return v
               | None => Raise (KeyError name)
               end
        end
    end).

(** Where the reader is: in literal text, just after a brace, or inside a
    replacement field whose name so far is [name]. *)
Inductive scan : Type :=
  | Text
  | Open
  | Close
  | Field (name : string).

Definition snoc (s : string) (c : ascii) : string := s +:+ String c EmptyString.

(** One character read inside a replacement field; [k] formats the rest of
    the string from a given state. *)
Definition field_char (kwargs : gmap string value) (name : string) (c : ascii)
    (k : scan → outcome string) : outcome string :=
  if decide (c = rbrace) then
    bind (get_field_object kwargs name) (λ v,
      lift (λ rest, str v +:+ rest) (k Text))
  else if decide (c = lbrace) then
    Raise (ValueError "unexpected '{' in field name")
  else if decide (c = ":"%char) then Unmodelled
  else if decide (c = "!"%char) then Unmodelled
  else if decide (c = "."%char) then Unmodelled
  else if decide (c = "["%char) then Unmodelled
  else k (Field (snoc name c)).

Fixpoint format_from (kwargs : gmap string value) (st : scan) (s : string)
  : outcome string :=
  match s with
  | EmptyString =>
      match st with
      | Text => Return EmptyString
      | Open => Raise (ValueError "Single '{' encountered in format string")
      | Close => Raise (ValueError "Single '}' encountered in format string")
      | Field _ => Raise (ValueError "expected '}' before end of string")
      end
  | String c s' =>
      match st with
      | Text =>
          if decide (c = lbrace) then format_from kwargs Open s'
          else if decide (c = rbrace) then format_from kwargs Close s'
          else lift (String c) (format_from kwargs Text s')
      | Open =>
          if decide (c = lbrace)
          then lift (String lbrace) (format_from kwargs Text s')
          else field_char kwargs EmptyString c (λ st', format_from kwargs st' s')
      | Close =>
          if decide (c = rbrace)
          then lift (String rbrace) (format_from kwargs Text s')
          else Raise (ValueError "Single '}' encountered in format string")
      | Field name =>
          field_char kwargs name c (λ st', format_from kwargs st' s')
      end
  end.

(** [template.format( **kwargs)] *)
Definition format (template : string) (kwargs : gmap string value)
  : outcome string :=
  format_from kwargs Text template.

(** ** Exception objects

    [Exception.__init__(self, msg)] stores its arguments in [self.args];
    [__init__] of the class below adds [self.kwargs]. *)
Record instance (C : Type) : Type := Instance {
  class_of : C;
  args : list value;
  kwargs : gmap string value
}.
Arguments Instance {C} _ _ _.
Arguments class_of {C} _.
Arguments args {C} _.
Arguments kwargs {C} _.

(** [BaseException.__str__]: nothing for no argument, the [str] of a single
    argument, the [str] of the tuple otherwise. *)
Definition BaseException_str {C} (e : instance C) : string :=
  match args e with
  | [] => EmptyString
  | [a] => str a
  | l => "(" +:+ join ", " (map repr l) +:+ ")"
  end.

End Py.

Import Py.

(** ** The classes of [botocore/exceptions.py] *)
Inductive cls : Type :=
  | BotoCoreError
  | DataNotFoundError
  | NoCredentialsError
  | NoRegionError
  | UnknownSignatureVersionError
  | ServiceNotInRegionError
  | ProfileNotFound
  | ConfigParseError
  | ConfigNotFound
  | MissingParametersError
  | ValidationError
  | UnknownKeyError
  | RangeError
  | UnknownParameterError
  | UnknownServiceStyle
  | PaginationError
  | EventNotFound
  | ChecksumError
  | UnseekableStreamError
  | WaiterError
  | IncompleteReadError
  | InvalidExpressionError
  | UnknownCredentialError.

Global Instance cls_eq_dec : EqDecision cls.
Proof. solve_decision. Defined.

Definition all_classes : list cls :=
  [ BotoCoreError; DataNotFoundError; NoCredentialsError; NoRegionError;
    UnknownSignatureVersionError; ServiceNotInRegionError; ProfileNotFound;
    ConfigParseError; ConfigNotFound; MissingParametersError; ValidationError;
    UnknownKeyError; RangeError; UnknownParameterError; UnknownServiceStyle;
    PaginationError; EventNotFound; ChecksumError; UnseekableStreamError;
    WaiterError; IncompleteReadError; InvalidExpressionError;
    UnknownCredentialError ].

(** The base named in each [class] statement; [None] is the builtin
    [Exception], which only [BotoCoreError] extends directly. *)
Definition base (c : cls) : option cls :=
  match c with
  | BotoCoreError => None
  | UnknownKeyError | RangeError | UnknownParameterError => Some ValidationError
  | _ => Some BotoCoreError
  end.

(** The [fmt] assigned in the body of each class. *)
Definition class_fmt (c : cls) : option string :=
  Some match c with
  | BotoCoreError => "An unspecified error occured"
  | DataNotFoundError => "Unable to load data for: {data_path}"
  | NoCredentialsError => "Unable to locate credentials"
  | NoRegionError =>
      "You must specify a region or set the {env_var} environment variable."
  | UnknownSignatureVersionError =>
      "Unknown Signature Version: {signature_version}."
  | ServiceNotInRegionError =>
      "Service {service_name} not available in region {region_name}"
  | ProfileNotFound => "The config profile ({profile}) could not be found"
  | ConfigParseError => "Unable to parse config file: {path}"
  | ConfigNotFound => "The specified config file ({path}) could not be found."
  | MissingParametersError =>
      "The following required parameters are missing for "
      +:+ "{object_name}: {missing}"
  | ValidationError =>
      "Invalid value ('{value}') for param {param} "
      +:+ "of type {type_name} "
  | UnknownKeyError =>
      "Unknown key '{value}' for param '{param}'.  Must be one "
      +:+ "of: {choices}"
  | RangeError =>
      "Value out of range for param {param}: "
      +:+ "{min_value} <= {value} <= {max_value}"
  | UnknownParameterError =>
      "Unknown parameter '{name}' for operation {operation}.  Must be one "
      +:+ "of: {choices}"
  | UnknownServiceStyle =>
      "The service style ({service_style}) is not understood."
  | PaginationError => "Error during pagination: {message}"
  | EventNotFound => "The event ({event_name}) is not known"
  | ChecksumError =>
      "Checksum {checksum_type} failed, expected checksum "
      +:+ "{expected_checksum} did not match calculated checksum "
      +:+ "{actual_checksum}."
  | UnseekableStreamError =>
      "Need to rewind the stream {stream_object}, but stream "
      +:+ "is not seekable."
  | WaiterError => "Waiter {name} failed: {reason}"
  | IncompleteReadError =>
      "{actual_bytes} read, but total bytes "
      +:+ "expected is {expected_bytes}."
  | InvalidExpressionError =>
      "Invalid expression {expression}: Only dotted lookups are supported."
  | UnknownCredentialError => "Credential named {name} not found."
  end.

(** The method resolution order of a class of this module, up to and not
    including [Exception]: the class, then the classes of its base. *)
Fixpoint mro_upto (fuel : nat) (c : cls) : list cls :=
  match fuel with
  | O => []
  | S fuel' =>
      c :: match base c with
           | Some b => mro_upto fuel' b
           | None => []
           end
  end.

Definition mro (c : cls) : list cls := mro_upto (length all_classes) c.

(** [issubclass(c, d)] and [isinstance(e, d)], for [d] a class of this
    module: what [except d] catches. *)
Definition issubclass (c d : cls) : bool := bool_decide (d ∈ mro c).

Definition isinstance (e : instance cls) (d : cls) : bool :=
  issubclass (class_of e) d.

(** [self.fmt]: the first [fmt] along the resolution order. *)
Definition fmt (c : cls) : option string :=
  head (omap class_fmt (mro c)).

(** [BotoCoreError.__init__(self, **kwargs)], inherited by every class:
<<
    msg = self.fmt.format( **kwargs)
    Exception.__init__(self, msg)
    self.kwargs = kwargs
>>
    called as [K( **kwargs)].  The first parameter is bound to the instance,
    so a keyword argument named [self] is a second value for it and the call
    raises [TypeError] before the body runs; every other keyword goes into
    [kwargs]. *)
Definition __init__ (c : cls) (kwargs : gmap string value)
  : outcome (instance cls) :=
  match kwargs !! "self" with
  | Some _ => Raise TypeError
  | None =>
      match fmt c with
      | None => Raise (AttributeError "fmt")
      | Some template =>
          bind (format template kwargs) (λ msg,
            Return (Instance c [VStr msg] kwargs))
      end
  end.

(** [str(e)]: no class here overrides [__str__]. *)
Definition __str__ (e : instance cls) : string := BaseException_str e.

(** [e.kwargs = d], or any in-place change of [e.kwargs] that leaves it as
    [d]. *)
Definition set_kwargs (e : instance cls) (d : gmap string value)
  : instance cls :=
  Instance (class_of e) (args e) d.

(** ** Templates as text and placeholders

    The placeholders of a template, found by reading it for [{name}] with no
    regard for escapes or faults: what a reader of the class body sees. *)
Inductive piece : Type :=
  | Lit (c : ascii)
  | Ref (name : string).

Fixpoint lits (s : string) : list piece :=
  match s with
  | EmptyString => []
  | String c s' => Lit c :: lits s'
  end.

(** [cur] is the placeholder name read so far, if a brace is open. *)
Fixpoint tokens_from (cur : option string) (s : string) : list piece :=
  match s with
  | EmptyString =>
      match cur with
      | None => []
      | Some n => Lit lbrace :: lits n
      end
  | String c s' =>
      match cur with
      | None =>
          if decide (c = lbrace) then tokens_from (Some EmptyString) s'
          else Lit c :: tokens_from None s'
      | Some n =>
          if decide (c = rbrace) then Ref n :: tokens_from None s'
          else tokens_from (Some (snoc n c)) s'
      end
  end.

Definition tokens (template : string) : list piece := tokens_from None template.

Fixpoint refs (ps : list piece) : list string :=
  match ps with
  | [] => []
  | Lit _ :: ps' => refs ps'
  | Ref n :: ps' => n :: refs ps'
  end.

(** The template of a class and the field names it refers to. *)
Definition template (c : cls) : string := default EmptyString (fmt c).

Definition placeholders (c : cls) : list string := refs (tokens (template c)).

(** The text of [{name}]. *)
Definition placeholder (name : string) : string :=
  String lbrace (name +:+ String rbrace EmptyString).

(** A placeholder replaced by the string form of its field; one without a
    field stays as it is. *)
Definition subst_piece (fields : gmap string value) (p : piece) : string :=
  match p with
  | Lit c => String c EmptyString
  | Ref n => match fields !! n with
             | Some v => str v
             | None => placeholder n
             end
  end.

Fixpoint concat (parts : list string) : string :=
  match parts with
  | [] => EmptyString
  | p :: rest => p +:+ concat rest
  end.

(** The template with every placeholder replaced by the string form of the
    field of that name. *)
Definition substitute (template : string) (fields : gmap string value)
  : string :=
  concat (map (subst_piece fields) (tokens template)).

(** Rendering a sequence of pieces from left to right, stopping at the first
    placeholder without a field. *)
Fixpoint render (fields : gmap string value) (ps : list piece)
  : outcome string :=
  match ps with
  | [] => Return EmptyString
  | Lit c :: ps' => lift (String c) (render fields ps')
  | Ref n :: ps' =>
      match fields !! n with
      | Some v => lift (λ rest, str v +:+ rest) (render fields ps')
      | None => Raise (KeyError n)
      end
  end.

(** Characters a plain field name is made of. *)
Definition name_char (c : ascii) : bool :=
  negb (bool_decide (c = lbrace)) && negb (bool_decide (c = rbrace))
  && negb (bool_decide (c = ":"%char)) && negb (bool_decide (c = "!"%char))
  && negb (bool_decide (c = "."%char)) && negb (bool_decide (c = "["%char)).

Fixpoint name_chars (s : string) : bool :=
  match s with
  | EmptyString => true
  | String c s' => name_char c && name_chars s'
  end.

(** A plain name: not empty, no digit in front, only name characters. *)
Definition plain_name (s : string) : bool :=
  match s with
  | EmptyString => false
  | String c _ => negb (bool_decide (is_Some (digit_value c))) && name_chars s
  end.

Definition plain_piece (p : piece) : bool :=
  match p with
  | Lit c => negb (bool_decide (c = lbrace)) && negb (bool_decide (c = rbrace))
  | Ref n => plain_name n
  end.

(** A plain template: literal text without braces and [{name}] fields with
    plain names.  Every [fmt] of the module is one. *)
Definition plain (template : string) : bool :=
  forallb plain_piece (tokens template).

(** ** Substrings *)
Fixpoint starts_with (needle hay : string) : bool :=
  match needle, hay with
  | EmptyString, _ => true
  | String c n', String d h' => bool_decide (c = d) && starts_with n' h'
  | String _ _, EmptyString => false
  end.

(** [needle in hay] *)
Fixpoint contains (needle hay : string) : bool :=
  starts_with needle hay ||
  match hay with
  | EmptyString => false
  | String _ h' => contains needle h'
  end.

(** ** The fields each kind requires, as the catalogue of kinds lists them *)
Definition required_fields (c : cls) : list string :=
  match c with
  | BotoCoreError => []
  | DataNotFoundError => ["data_path"]
  | NoCredentialsError => []
  | NoRegionError => ["env_var"]
  | UnknownSignatureVersionError => ["signature_version"]
  | ServiceNotInRegionError => ["service_name"; "region_name"]
  | ProfileNotFound => ["profile"]
  | ConfigParseError => ["path"]
  | ConfigNotFound => ["path"]
  | MissingParametersError => ["object_name"; "missing"]
  | ValidationError => ["value"; "param"; "type_name"]
  | UnknownKeyError => ["value"; "param"; "choices"]
  | RangeError => ["param"; "value"; "min_value"; "max_value"]
  | UnknownParameterError => ["name"; "operation"; "choices"]
  | UnknownServiceStyle => ["service_style"]
  | PaginationError => ["message"]
  | EventNotFound => ["event_name"]
  | ChecksumError => ["checksum_type"; "expected_checksum"; "actual_checksum"]
  | UnseekableStreamError => ["stream_object"]
  | WaiterError => ["name"; "reason"]
  | IncompleteReadError => ["actual_bytes"; "expected_bytes"]
  | InvalidExpressionError => ["expression"]
  | UnknownCredentialError => ["name"]
  end.

(** Does the string form of some field have an opening brace? *)
Definition brace_free (fields : gmap string value) : Prop :=
  ∀ n v, fields !! n = Some v → has_char lbrace (str v) = false.

(** Modelled from the spec: field-access(instance, name), the read-only
    lookup into the retained field map.  The source has no accessor of its
    own; the map is the attribute [kwargs] that [__init__] sets, and the
    lookup gives the value or nothing. *)
Definition field_access (e : instance cls) (name : string) : option value :=
  kwargs e !! name.

(** The kinds below the validation category. *)
Definition narrow_validation : list cls :=
  [UnknownKeyError; RangeError; UnknownParameterError].

(** The state of [format] that goes with an open brace and the name [n] read
    after it. *)
Definition field_state (n : string) : scan :=
  match n with
  | EmptyString => Open
  | _ => Field n
  end.

(** ** Sample field maps *)

(** [param="Count", value=50, min_value=1, max_value=10] *)
Definition count_fields : gmap string value :=
  <["param" := VStr "Count"]> (<["value" := VInt 50]>
    (<["min_value" := VInt 1]> (<["max_value" := VInt 10]> ∅))).

(** The same fields, with a parameter whose name looks like a placeholder. *)
Definition nested_fields : gmap string value :=
  <["param" := VStr "{value}"]> (<["value" := VInt 50]>
    (<["min_value" := VInt 1]> (<["max_value" := VInt 10]> ∅))).

(** A field the templates do not refer to, and a field named [self]. *)
Definition region_fields : gmap string value :=
  <["region" := VStr "us-east-1"]> ∅.

Definition self_fields : gmap string value := <["self" := VInt 1]> ∅.

(** [value="Foo", param="Action", choices=["Read","Write"]] *)
Definition key_fields : gmap string value :=
  <["value" := VStr "Foo"]> (<["param" := VStr "Action"]>
    (<["choices" := VList [VStr "Read"; VStr "Write"]]> ∅)).

(** ** Further notions used by the properties *)

(** The first of [names] that is not a key of [fields]. *)
Definition first_missing (fields : gmap string value) (names : list string)
  : option string :=
  find (λ n, bool_decide (fields !! n = None)) names.

(** The text of a template before its first brace. *)
Fixpoint literal_prefix (s : string) : string :=
  match s with
  | EmptyString => EmptyString
  | String c s' =>
      if decide (c = lbrace) then EmptyString
      else String c (literal_prefix s')
  end.

(** Names that can be written as a keyword in a call, [K(name=value)]:
    identifiers (here of ASCII letters, digits and underscores, no digit in
    front) that are no reserved word, and not [self], which the call binds
    to the instance. *)
Definition ident_start (c : ascii) : bool :=
  let n := nat_of_ascii c in
  (((65 <=? n) && (n <=? 90)) || ((97 <=? n) && (n <=? 122)) || (n =? 95))%nat.

Definition ident_char (c : ascii) : bool :=
  ident_start c || bool_decide (is_Some (digit_value c)).

Fixpoint ident_chars (s : string) : bool :=
  match s with
  | EmptyString => true
  | String c s' => ident_char c && ident_chars s'
  end.

Definition is_identifier (s : string) : bool :=
  match s with
  | EmptyString => false
  | String c s' => ident_start c && ident_chars s'
  end.

Definition reserved_words : list string :=
  [ "False"; "None"; "True"; "and"; "as"; "assert"; "async"; "await";
    "break"; "class"; "continue"; "def"; "del"; "elif"; "else"; "except";
    "exec"; "finally"; "for"; "from"; "global"; "if"; "import"; "in"; "is";
    "lambda"; "nonlocal"; "not"; "or"; "pass"; "print"; "raise"; "return";
    "try"; "while"; "with"; "yield" ].

Definition keyword_name (n : string) : bool :=
  is_identifier n && negb (bool_decide (n ∈ reserved_words))
  && negb (bool_decide (n = "self")).

(** A keyword dictionary whose values are all text. *)
Definition text_valued (fields : gmap string value) : Prop :=
  map_Forall (λ _ v, ∃ t, v = VStr t) fields.

(** Two waiter errors with different fields. *)
Definition waiter_fields_1 : gmap string value :=
  <["name" := VStr "a failed: b"]> (<["reason" := VStr "c"]> ∅).

Definition waiter_fields_2 : gmap string value :=
  <["name" := VStr "a"]> (<["reason" := VStr "b failed: c"]> ∅).

(** [object_name="PutObject", missing=["Bucket","Key"]] *)
Definition missing_fields : gmap string value :=
  <["object_name" := VStr "PutObject"]>
    (<["missing" := VList (map VStr ["Bucket"; "Key"])]> ∅).

(** * Properties *)

(** ** The builtins on small inputs *)

Example format_escaped_braces :
  format "{{{a}}}" (<["a" := VInt 7]> ∅) = Return "{7}".
Proof. vm_compute. reflexivity. Qed.

Example format_missing_key :
  format "x{a}y{b}" (<["b" := VInt 7]> ∅) = Raise (KeyError "a").
Proof. vm_compute. reflexivity. Qed.

Example format_automatic_index : format "{}" ∅ = Raise IndexError.
Proof. vm_compute. reflexivity. Qed.

Example format_explicit_index :
  format "{0}" (<["0" := VInt 7]> ∅) = Raise IndexError.
Proof. vm_compute. reflexivity. Qed.

Example format_single_brace :
  format "a}b" ∅ = Raise (ValueError "Single '}' encountered in format string")
  ∧ format "a{" ∅ = Raise (ValueError "Single '{' encountered in format string")
  ∧ format "{a" ∅ = Raise (ValueError "expected '}' before end of string").
Proof. vm_compute. done. Qed.

Example format_fault_order :
  format "{a}}" ∅ = Raise (KeyError "a").
Proof. vm_compute. reflexivity. Qed.

Example str_of_values :
  str (VInt (-12)) = "-12"
  ∧ str (VStr "it's") = "it's"
  ∧ str (VList [VStr "it's"; VInt 0; VNone; VBool true; VList []])
    = String "[" (String dquote ("it's" +:+ String dquote
        ", 0, None, True, []]")).
Proof. vm_compute. done. Qed.

(** ** Reading a plain template *)

Lemma name_chars_snoc n c :
  name_chars (snoc n c) = name_chars n && name_char c.
Proof.
  induction n as [|d n IH]; simpl.
  - by rewrite andb_true_r.
  - fold (snoc n c). rewrite IH. by rewrite andb_assoc.
Qed.

Lemma snoc_not_empty n c : snoc n c ≠ EmptyString.
Proof. by destruct n. Qed.

Lemma plain_name_chars n : plain_name n = true → name_chars n = true.
Proof. destruct n; [done|]. unfold plain_name. by intros [_ ?]%andb_true_iff. Qed.

(** While a brace is open in a plain template, the name read so far is made
    of name characters. *)
Lemma tokens_open_name_chars s : ∀ n,
  forallb plain_piece (tokens_from (Some n) s) = true → name_chars n = true.
Proof.
  induction s as [|c s IH]; intros n H; simpl in H.
  - discriminate.
  - case_decide.
    + simpl in H. apply andb_true_iff in H as [H _]. by apply plain_name_chars.
    + apply IH in H. rewrite name_chars_snoc in H.
      by apply andb_true_iff in H as [H _].
Qed.

Lemma get_field_object_plain (kw : gmap string value) n :
  plain_name n = true →
  get_field_object kw n =
    match kw !! n with Some v => Return v | None => Raise (KeyError n) end.
Proof.
  destruct n as [|c n]; [done|]. unfold plain_name.
  intros [Hd _]%andb_true_iff. apply negb_true_iff, bool_decide_eq_false in Hd.
  unfold get_field_object, get_integer; simpl.
  destruct (digit_value c); [|done]. destruct Hd; eauto.
Qed.

Lemma field_char_name kw n c k :
  name_char c = true → field_char kw n c k = k (Field (snoc n c)).
Proof.
  unfold name_char, field_char. rewrite !andb_true_iff, !negb_true_iff.
  rewrite !bool_decide_eq_false. intros [[[[[? ?] ?] ?] ?] ?].
  by repeat case_decide.
Qed.

(** [format] on a plain template reads the same pieces as [tokens] and
    renders them in order. *)
Lemma format_from_plain kw s :
  (forallb plain_piece (tokens_from None s) = true →
   format_from kw Text s = render kw (tokens_from None s)) ∧
  (∀ n, forallb plain_piece (tokens_from (Some n) s) = true →
   format_from kw (field_state n) s = render kw (tokens_from (Some n) s)).
Proof.
  induction s as [|c s [IHt IHf]]; split.
  - done.
  - intros n H. simpl in H. discriminate.
  - intros H. simpl in *. case_decide as Hl.
    + apply (IHf EmptyString H).
    + simpl in H. apply andb_true_iff in H as [Hc H].
      apply andb_true_iff in Hc as [_ Hr].
      apply negb_true_iff, bool_decide_eq_false in Hr.
      rewrite decide_False by done. simpl. by rewrite IHt.
  - intros n H. simpl in H.
    assert (format_from kw (field_state n) (String c s) =
            if decide (c = lbrace) then
              match n with
              | EmptyString => lift (String lbrace) (format_from kw Text s)
              | _ => field_char kw n c (λ st', format_from kw st' s)
              end
            else field_char kw n c (λ st', format_from kw st' s)) as ->.
    { destruct n; cbn [format_from field_state]; by destruct (decide (c = lbrace)). }
    cbn [tokens_from]. destruct (decide (c = rbrace)) as [Hr|Hr].
    + subst c. rewrite decide_False by done.
      simpl in H. apply andb_true_iff in H as [Hn H].
      unfold field_char. rewrite decide_True by done.
      rewrite (get_field_object_plain _ _ Hn).
      cbn [render]. destruct (kw !! n); simpl; [|done]. by rewrite IHt.
    + pose proof (tokens_open_name_chars _ _ H) as Hs.
      rewrite name_chars_snoc in Hs. apply andb_true_iff in Hs as [_ Hc].
      assert (c ≠ lbrace) as Hl.
      { intros ->. discriminate. }
      rewrite decide_False by done.
      rewrite field_char_name by done.
      specialize (IHf _ H).
      destruct (snoc n c) eqn:E; [by destruct (snoc_not_empty n c)|].
      exact IHf.
Qed.

Lemma format_plain t kw :
  plain t = true → format t kw = render kw (tokens t).
Proof. intros H. by apply format_from_plain. Qed.

(** Every template of the module is plain, and every class has one. *)
Lemma fmt_template c : fmt c = Some (template c).
Proof. by destruct c. Qed.

Lemma template_plain c : plain (template c) = true.
Proof. destruct c; vm_compute; reflexivity. Qed.

Lemma init_self c (kw : gmap string value) :
  is_Some (kw !! "self") → __init__ c kw = Raise TypeError.
Proof. intros [v Hv]. unfold __init__. by rewrite Hv. Qed.

Lemma init_render c (kw : gmap string value) :
  kw !! "self" = None →
  __init__ c kw =
    bind (render kw (tokens (template c))) (λ msg,
      Return (Instance c [VStr msg] kw)).
Proof.
  intros Hs. unfold __init__. rewrite Hs, fmt_template.
  by rewrite (format_plain _ _ (template_plain c)).
Qed.

Lemma init_return_self c (kw : gmap string value) e :
  __init__ c kw = Return e → kw !! "self" = None.
Proof.
  intros He. destruct (kw !! "self") eqn:Hs; [|done].
  rewrite init_self in He by eauto. discriminate.
Qed.

(** ** Text *)

Lemma app_cons c (a b : string) : String c a +:+ b = String c (a +:+ b).
Proof. reflexivity. Qed.

Lemma app_assoc (a b c : string) : (a +:+ b) +:+ c = a +:+ (b +:+ c).
Proof. induction a as [|x a IH]; [done|]. by rewrite !app_cons, IH. Qed.

Lemma has_char_app c (a b : string) :
  has_char c (a +:+ b) = has_char c a || has_char c b.
Proof.
  induction a as [|x a IH]; [done|].
  rewrite app_cons. simpl. by case_decide.
Qed.

Lemma has_char_concat c parts :
  has_char c (concat parts) = existsb (has_char c) parts.
Proof.
  induction parts as [|p parts IH]; [done|].
  simpl. by rewrite has_char_app, IH.
Qed.

Lemma starts_with_app n b : starts_with n (n +:+ b) = true.
Proof.
  induction n as [|c n IH]; [done|].
  rewrite app_cons. simpl. by rewrite bool_decide_eq_true_2.
Qed.

Lemma starts_with_inv n h :
  starts_with n h = true → ∃ b, h = n +:+ b.
Proof.
  revert h. induction n as [|c n IH]; intros h H.
  - by exists h.
  - destruct h as [|d h]; [done|]. simpl in H.
    apply andb_true_iff in H as [->%bool_decide_eq_true H].
    destruct (IH _ H) as [b ->]. by exists b.
Qed.

(** [contains] is the substring relation. *)
Lemma contains_spec n h :
  contains n h = true ↔ ∃ a b, h = a +:+ n +:+ b.
Proof.
  split.
  - induction h as [|d h IH]; simpl; intros H.
    + rewrite orb_false_r in H. apply starts_with_inv in H as [b ->].
      by exists EmptyString, b.
    + apply orb_true_iff in H as [H|H].
      * apply starts_with_inv in H as [b ->]. by exists EmptyString, b.
      * destruct (IH H) as (a & b & ->). by exists (String d a), b.
  - intros (a & b & ->). induction a as [|d a IH].
    + change (EmptyString +:+ n +:+ b) with (n +:+ b).
      destruct (n +:+ b) eqn:E; simpl; rewrite <-E, starts_with_app; done.
    + rewrite app_cons. simpl. rewrite IH. by rewrite orb_true_r.
Qed.

Lemma contains_app_r n a h : contains n h = true → contains n (a +:+ h) = true.
Proof.
  rewrite !contains_spec. intros (x & y & ->).
  exists (a +:+ x), y. by rewrite app_assoc.
Qed.

Lemma contains_app_l n h b : contains n h = true → contains n (h +:+ b) = true.
Proof.
  rewrite !contains_spec. intros (x & y & ->).
  exists x, (y +:+ b). by rewrite !app_assoc.
Qed.

Lemma contains_refl n : contains n n = true.
Proof.
  apply contains_spec. exists EmptyString, EmptyString.
  change (EmptyString +:+ n +:+ EmptyString) with (n +:+ EmptyString).
  induction n as [|c n IH]; [done|]. by rewrite app_cons, <-IH.
Qed.

Lemma contains_concat p parts :
  p ∈ parts → contains p (concat parts) = true.
Proof.
  induction 1 as [p parts|p q parts _ IH]; simpl.
  - apply contains_app_l, contains_refl.
  - by apply contains_app_r.
Qed.

(** Text with no opening brace contains no placeholder. *)
Lemma contains_placeholder n h :
  has_char lbrace h = false → contains (placeholder n) h = false.
Proof.
  intros H. apply not_true_is_false. intros (a & b & ->)%contains_spec.
  rewrite has_char_app in H. apply orb_false_iff in H as [_ H].
  unfold placeholder in H. rewrite app_cons in H. by simpl in H.
Qed.

(** ** Rendering pieces *)

Lemma render_all kw ps :
  (∀ n, n ∈ refs ps → is_Some (kw !! n)) →
  render kw ps = Return (concat (map (subst_piece kw) ps)).
Proof.
  induction ps as [|[c|n] ps IH]; intros H; simpl.
  - done.
  - by rewrite IH.
  - destruct (H n) as [v Hv]; [simpl; left|].
    rewrite Hv. rewrite IH; [done|]. intros m Hm. apply H. simpl. by right.
Qed.

Lemma render_missing kw ps n :
  n ∈ refs ps → kw !! n = None →
  ∃ n', render kw ps = Raise (KeyError n') ∧ n' ∈ refs ps ∧ kw !! n' = None.
Proof.
  induction ps as [|[c|m] ps IH]; simpl; intros Hin Hn.
  - by apply elem_of_nil in Hin.
  - destruct (IH Hin Hn) as (n' & -> & ? & ?). by exists n'.
  - destruct (kw !! m) eqn:Hm.
    + apply elem_of_cons in Hin as [->|Hin]; [congruence|].
      destruct (IH Hin Hn) as (n' & -> & ? & ?).
      exists n'. split; [done|]. split; [by right|done].
    + exists m. split; [done|]. split; [by left|done].
Qed.

(** The outcome depends on the fields the pieces refer to, and on nothing
    else. *)
Lemma render_agree kw1 kw2 ps :
  (∀ n, n ∈ refs ps → kw1 !! n = kw2 !! n) →
  render kw1 ps = render kw2 ps.
Proof.
  induction ps as [|[c|n] ps IH]; intros H; simpl.
  - done.
  - by rewrite IH.
  - rewrite <-(H n) by (simpl; left).
    rewrite IH; [done|]. intros m Hm. apply H. simpl. by right.
Qed.

Lemma subst_piece_elem kw ps n v :
  n ∈ refs ps → kw !! n = Some v → str v ∈ map (subst_piece kw) ps.
Proof.
  induction ps as [|[c|m] ps IH]; simpl; intros Hin Hv.
  - by apply elem_of_nil in Hin.
  - right. by apply IH.
  - apply elem_of_cons in Hin as [->|Hin].
    + rewrite Hv. by left.
    + right. by apply IH.
Qed.

Lemma subst_brace_free kw ps :
  forallb plain_piece ps = true →
  (∀ n, n ∈ refs ps → is_Some (kw !! n)) →
  brace_free kw →
  has_char lbrace (concat (map (subst_piece kw) ps)) = false.
Proof.
  intros Hp Hall Hb. rewrite has_char_concat.
  induction ps as [|[c|n] ps IH]; simpl in *; [done|..].
  - apply andb_true_iff in Hp as [Hc Hp].
    apply andb_true_iff in Hc as [Hc _].
    apply negb_true_iff, bool_decide_eq_false in Hc.
    rewrite decide_False by done. simpl. by apply IH.
  - apply andb_true_iff in Hp as [_ Hp].
    destruct (Hall n) as [v Hv]; [by left|]. rewrite Hv.
    rewrite (Hb _ _ Hv). simpl. apply IH; [done|].
    intros m Hm. apply Hall. by right.
Qed.

(** ** Construction *)

(** The placeholders of each template are the fields the catalogue lists for
    its kind. *)
Lemma placeholders_required c :
  (list_to_set (placeholders c) : gset string) = list_to_set (required_fields c).
Proof. destruct c; vm_compute; reflexivity. Qed.

Lemma elem_of_required c n : n ∈ required_fields c ↔ n ∈ placeholders c.
Proof.
  rewrite <-(elem_of_list_to_set (C := gset string) n (required_fields c)).
  rewrite <-placeholders_required. apply elem_of_list_to_set.
Qed.

Lemma self_not_placeholder c : "self" ∉ placeholders c.
Proof. apply (bool_decide_eq_false_1 _). by destruct c; vm_compute. Qed.

Lemma init_ok c (kw : gmap string value) :
  kw !! "self" = None →
  (∀ n, n ∈ placeholders c → is_Some (kw !! n)) →
  __init__ c kw = Return (Instance c [VStr (substitute (template c) kw)] kw).
Proof. intros Hs H. rewrite init_render by done. by rewrite render_all. Qed.

Lemma init_missing c (kw : gmap string value) n :
  kw !! "self" = None →
  n ∈ placeholders c → kw !! n = None →
  ∃ n', __init__ c kw = Raise (KeyError n') ∧ n' ∈ placeholders c
        ∧ kw !! n' = None.
Proof.
  intros Hs Hn Hkw.
  destruct (render_missing kw _ n Hn Hkw) as (n' & Hr & ? & ?).
  exists n'. by rewrite init_render, Hr.
Qed.

Lemma init_return_fields c (kw : gmap string value) e :
  __init__ c kw = Return e → ∀ n, n ∈ placeholders c → is_Some (kw !! n).
Proof.
  intros He n Hn. destruct (kw !! n) eqn:Hkw; [by eexists|].
  destruct (init_missing c kw n (init_return_self _ _ _ He) Hn Hkw)
    as (n' & Hr & _).
  congruence.
Qed.

Lemma init_return c (kw : gmap string value) e :
  __init__ c kw = Return e →
  e = Instance c [VStr (substitute (template c) kw)] kw.
Proof.
  intros He.
  rewrite (init_ok c kw) in He
    by eauto using init_return_self, init_return_fields.
  congruence.
Qed.

Lemma contains_trans a b h :
  contains a b = true → contains b h = true → contains a h = true.
Proof.
  rewrite !contains_spec. intros (x & y & ->) (u & v & ->).
  exists (u +:+ x), (y +:+ v). by rewrite !app_assoc.
Qed.

(** ** The claims *)

(** C1, as amended.  Constructing a kind with exactly its required fields
    returns an instance whose message is the template with every placeholder
    replaced by the string form of its field, and which contains the string
    form of every required field.  No placeholder text remains in it when no
    field's string form has an opening brace; a field whose string form has
    the shape of a placeholder is copied as it is (see
    [C1_placeholder_text_can_remain]). *)
Theorem C1_exact_fields_render (K : cls) (fields : gmap string value) :
  dom fields = list_to_set (required_fields K) →
  ∃ e, __init__ K fields = Return e
       ∧ __str__ e = substitute (template K) fields
       ∧ (∀ n v, n ∈ required_fields K → fields !! n = Some v →
                 contains (str v) (__str__ e) = true)
       ∧ (brace_free fields →
          ∀ n, contains (placeholder n) (__str__ e) = false).
Proof.
  intros Hdom.
  assert (∀ n, n ∈ placeholders K → is_Some (fields !! n)) as Hall.
  { intros n Hn. apply elem_of_dom. rewrite Hdom.
    by apply elem_of_list_to_set, elem_of_required. }
  assert (fields !! "self" = None) as Hs.
  { apply not_elem_of_dom. rewrite Hdom. intros Hin.
    apply elem_of_list_to_set, elem_of_required in Hin.
    by apply self_not_placeholder in Hin. }
  eexists. split; [by apply init_ok|]. split; [done|]. split.
  - intros n v Hn Hv. apply contains_concat.
    apply subst_piece_elem with n; [|done]. by apply elem_of_required.
  - intros Hb n. apply contains_placeholder.
    apply subst_brace_free; [apply template_plain|done..].
Qed.

Lemma C1_exact_fields_render_witness :
  ∃ e, __init__ RangeError count_fields = Return e
       ∧ __str__ e = substitute (template RangeError) count_fields
       ∧ (∀ n v, n ∈ required_fields RangeError → count_fields !! n = Some v →
                 contains (str v) (__str__ e) = true)
       ∧ (brace_free count_fields →
          ∀ n, contains (placeholder n) (__str__ e) = false).
Proof.
  apply (C1_exact_fields_render RangeError count_fields).
  vm_compute. reflexivity.
Defined.

(** C1 as stated fails: the range kind built with exactly its four required
    fields, where [param] is the text [{value}], has a message in which the
    placeholder text [{value}] remains. *)
Lemma C1_placeholder_text_can_remain :
  dom nested_fields = list_to_set (required_fields RangeError)
  ∧ "value" ∈ required_fields RangeError
  ∧ lift __str__ (__init__ RangeError nested_fields)
    = Return "Value out of range for param {value}: 1 <= 50 <= 10"
  ∧ contains (placeholder "value")
      "Value out of range for param {value}: 1 <= 50 <= 10" = true.
Proof.
  split; [vm_compute; reflexivity|].
  split; [apply elem_of_required; vm_compute; repeat constructor|].
  split; vm_compute; reflexivity.
Qed.

(** C2.  If the field map lacks a name the template of the kind refers to,
    construction raises and returns no instance: [KeyError] for such a name
    (the first one missing), or, when the map has a field named [self],
    the [TypeError] of the call. *)
Theorem C2_missing_field_fails (K : cls) (fields : gmap string value)
    (n : string) :
  n ∈ placeholders K → fields !! n = None →
  (∃ ex, __init__ K fields = Raise ex)
  ∧ (fields !! "self" = None →
     ∃ n', __init__ K fields = Raise (KeyError n') ∧ n' ∈ placeholders K
           ∧ fields !! n' = None)
  ∧ (is_Some (fields !! "self") → __init__ K fields = Raise TypeError)
  ∧ ∀ e, __init__ K fields ≠ Return e.
Proof.
  intros Hn Hf.
  assert (∃ ex, __init__ K fields = Raise ex) as [ex Hex].
  { destruct (fields !! "self") eqn:Hs.
    - exists TypeError. apply init_self. by rewrite Hs.
    - destruct (init_missing K fields n Hs Hn Hf) as (n' & Hr & _). eauto. }
  split_and!.
  - by exists ex.
  - intros Hs. by apply init_missing with n.
  - apply init_self.
  - intros e. by rewrite Hex.
Qed.

Lemma C2_missing_field_fails_witness :
  (∃ n', __init__ RangeError (delete "value" count_fields) = Raise (KeyError n')
         ∧ n' ∈ placeholders RangeError
         ∧ delete "value" count_fields !! n' = None)
  ∧ ∀ e, __init__ RangeError (delete "value" count_fields) ≠ Return e.
Proof.
  assert ("value" ∈ placeholders RangeError) as H1.
  { vm_compute. repeat constructor. }
  assert (delete "value" count_fields !! "value" = None) as H2.
  { vm_compute. reflexivity. }
  split.
  - apply (proj1 (proj2 (C2_missing_field_fails RangeError
      (delete "value" count_fields) "value" H1 H2))).
    vm_compute. reflexivity.
  - apply (proj2 (proj2 (proj2 (C2_missing_field_fails RangeError
      (delete "value" count_fields) "value" H1 H2)))).
Defined.

(** C3.  An instance of a narrow validation kind is an instance of its own
    class, of [ValidationError] and of [BotoCoreError], its resolution order
    being exactly these three; [ValidationError] is a [BotoCoreError].  Its
    message comes from the template of its own class body, which is not the
    one of [ValidationError].  The range kind refers to [param], [value],
    [min_value] and [max_value], not to [type_name], and is constructed from
    any field map with exactly these four. *)
Theorem C3_validation_chain (K : cls) (fields : gmap string value)
    (e : instance cls) :
  K ∈ narrow_validation →
  __init__ K fields = Return e →
  isinstance e K = true
  ∧ isinstance e ValidationError = true
  ∧ isinstance e BotoCoreError = true
  ∧ issubclass ValidationError BotoCoreError = true
  ∧ mro K = [K; ValidationError; BotoCoreError]
  ∧ fmt K = class_fmt K
  ∧ fmt K ≠ fmt ValidationError
  ∧ __str__ e = substitute (template K) fields
  ∧ (list_to_set (placeholders RangeError) : gset string)
    = {[ "param"; "value"; "min_value"; "max_value" ]}
  ∧ ("type_name" ∉ placeholders RangeError)
  ∧ (∀ fields' : gmap string value,
        dom fields' = {[ "param"; "value"; "min_value"; "max_value" ]} →
        fields' !! "type_name" = None
        ∧ ∃ e', __init__ RangeError fields' = Return e').
Proof.
  intros HK He. apply init_return in He as ->. unfold isinstance; simpl.
  assert (K = UnknownKeyError ∨ K = RangeError ∨ K = UnknownParameterError)
    as HK'.
  { unfold narrow_validation in HK.
    repeat (apply elem_of_cons in HK as [HK|HK]; [by eauto|]).
    by apply elem_of_nil in HK. }
  assert ((list_to_set (placeholders RangeError) : gset string)
          = {[ "param"; "value"; "min_value"; "max_value" ]}) as Hrange.
  { vm_compute. reflexivity. }
  split_and!.
  1-7: destruct HK' as [-> | [-> | ->]]; try (vm_compute; reflexivity);
       vm_compute; discriminate.
  - done.
  - exact Hrange.
  - apply (bool_decide_eq_false_1 _). vm_compute. reflexivity.
  - intros fields' Hdom. split.
    + apply not_elem_of_dom. rewrite Hdom.
      apply (bool_decide_eq_false_1 _). vm_compute. reflexivity.
    + eexists. apply init_ok.
      * apply not_elem_of_dom. rewrite Hdom.
        apply (bool_decide_eq_false_1 _). vm_compute. reflexivity.
      * intros n Hn. apply elem_of_dom.
        rewrite Hdom, <-Hrange. by apply elem_of_list_to_set.
Qed.

Lemma C3_validation_chain_witness :
  isinstance (Instance RangeError
    [VStr "Value out of range for param Count: 1 <= 50 <= 10"] count_fields)
    ValidationError = true.
Proof.
  refine (proj1 (proj2 (C3_validation_chain RangeError count_fields
    (Instance RangeError
       [VStr "Value out of range for param Count: 1 <= 50 <= 10"]
       count_fields) _ _))).
  - vm_compute. repeat constructor.
  - vm_compute. reflexivity.
Defined.

(** C4.  The range kind with [param="Count"], [value=50], [min_value=1],
    [max_value=10] is constructed, and its message is this text. *)
Theorem C4_range_message :
  lift __str__ (__init__ RangeError count_fields)
  = Return "Value out of range for param Count: 1 <= 50 <= 10".
Proof. vm_compute. reflexivity. Qed.

(** C5.  The unknown-key kind with [value="Foo"], [param="Action"],
    [choices=["Read","Write"]] is constructed with this message, two spaces
    after the period.  The list is rendered as its [str], a function of its
    elements, and every field map with these three values, however it was
    built and whatever else it holds (a field named [self] apart, which no
    call accepts), gives the same message. *)
Theorem C5_unknown_key_message :
  lift __str__ (__init__ UnknownKeyError key_fields)
  = Return
      "Unknown key 'Foo' for param 'Action'.  Must be one of: ['Read', 'Write']"
  ∧ str (VList [VStr "Read"; VStr "Write"]) = "['Read', 'Write']"
  ∧ (∀ fields : gmap string value,
       fields !! "self" = None →
       fields !! "value" = Some (VStr "Foo") →
       fields !! "param" = Some (VStr "Action") →
       fields !! "choices" = Some (VList [VStr "Read"; VStr "Write"]) →
       lift __str__ (__init__ UnknownKeyError fields)
       = lift __str__ (__init__ UnknownKeyError key_fields)).
Proof.
  split_and!; [vm_compute; reflexivity..|].
  intros fields Hs Hv Hp Hc. rewrite !init_render by done.
  rewrite (render_agree fields key_fields).
  { by destruct (render key_fields _). }
  intros n Hn.
  assert (n = "value" ∨ n = "param" ∨ n = "choices") as [-> | [-> | ->]].
  { revert Hn. vm_compute. intros Hn.
    repeat (apply elem_of_cons in Hn as [Hn|Hn]; [by eauto|]).
    by apply elem_of_nil in Hn. }
  - by rewrite Hv.
  - by rewrite Hp.
  - by rewrite Hc.
Qed.

(** C6.  The field map an instance retains is the one it was constructed
    from: a supplied name gives back the value supplied, and a name that was
    not supplied is absent. *)
Theorem C6_field_round_trip (K : cls) (fields : gmap string value)
    (e : instance cls) :
  __init__ K fields = Return e →
  kwargs e = fields
  ∧ (∀ n v, fields !! n = Some v → field_access e n = Some v)
  ∧ (∀ n, fields !! n = None → field_access e n = None).
Proof.
  intros He. apply init_return in He as ->. unfold field_access. by simpl.
Qed.

Lemma C6_field_round_trip_witness :
  kwargs (Instance RangeError
    [VStr "Value out of range for param Count: 1 <= 50 <= 10"] count_fields)
  = count_fields.
Proof.
  refine (proj1 (C6_field_round_trip RangeError count_fields _ _)).
  vm_compute. reflexivity.
Defined.

(** C7.  The string conversion of a constructed instance is the message
    [format] rendered at construction.  It reads [args] only, so it is the
    same at every call and stays the same when the retained field map is
    replaced or changed afterwards. *)
Theorem C7_str_stable (K : cls) (fields : gmap string value)
    (e : instance cls) :
  __init__ K fields = Return e →
  format (template K) fields = Return (__str__ e)
  ∧ args e = [VStr (__str__ e)]
  ∧ (∀ d, __str__ (set_kwargs e d) = __str__ e)
  ∧ (∀ n v, __str__ (set_kwargs e (<[n := v]> (kwargs e))) = __str__ e)
  ∧ (∀ n, __str__ (set_kwargs e (delete n (kwargs e))) = __str__ e).
Proof.
  intros He. pose proof (init_return_fields _ _ _ He) as Hall.
  apply init_return in He as ->.
  split_and!; try done.
  rewrite (format_plain _ _ (template_plain K)). by rewrite render_all.
Qed.

Lemma C7_str_stable_witness :
  __str__ (set_kwargs (Instance RangeError
    [VStr "Value out of range for param Count: 1 <= 50 <= 10"] count_fields)
    (<["value" := VInt 5]> count_fields))
  = __str__ (Instance RangeError
    [VStr "Value out of range for param Count: 1 <= 50 <= 10"] count_fields).
Proof.
  refine (proj1 (proj2 (proj2
    (C7_str_stable RangeError count_fields _ _))) _).
  vm_compute. reflexivity.
Defined.

(** C8, as amended.  A field map with every placeholder of the template and
    more, none of it a field named [self], is accepted: the instance retains
    the whole map, the fields the template does not refer to included, and
    its message is the one constructed from the referred fields alone, or
    from any part [req] of the map that has them. *)
Theorem C8_extra_fields (K : cls) (req fields : gmap string value) :
  (∀ n, n ∈ placeholders K → is_Some (req !! n)) →
  req ⊆ fields →
  fields !! "self" = None →
  ∃ e0 e, __init__ K req = Return e0
          ∧ __init__ K fields = Return e
          ∧ kwargs e = fields
          ∧ (∀ n v, fields !! n = Some v → field_access e n = Some v)
          ∧ __str__ e = __str__ e0
          ∧ __init__ K (filter (λ kv, kv.1 ∈ placeholders K) fields)
            = Return (set_kwargs e0
                        (filter (λ kv, kv.1 ∈ placeholders K) fields)).
Proof.
  intros Hreq Hsub Hs.
  assert (req !! "self" = None) as Hs0.
  { by apply (lookup_weaken_None req fields). }
  assert (filter (λ kv, kv.1 ∈ placeholders K) fields !! "self" = None)
    as Hs1.
  { apply (lookup_weaken_None _ fields); [done|]. apply map_filter_subseteq. }
  assert (∀ n, n ∈ placeholders K → fields !! n = req !! n) as Hsame.
  { intros n Hn. destruct (Hreq n Hn) as [v Hv]. rewrite Hv.
    by apply (lookup_weaken req fields). }
  assert (∀ n, n ∈ placeholders K →
            filter (λ kv, kv.1 ∈ placeholders K) fields !! n = req !! n)
    as Hfilter.
  { intros n Hn. destruct (Hreq n Hn) as [v Hv]. rewrite Hv.
    apply map_lookup_filter_Some. split; [|done].
    by apply (lookup_weaken req fields). }
  assert (render fields (tokens (template K))
          = render req (tokens (template K))) as Hr.
  { by apply render_agree. }
  assert (render (filter (λ kv, kv.1 ∈ placeholders K) fields)
            (tokens (template K))
          = render req (tokens (template K))) as Hr'.
  { by apply render_agree. }
  exists (Instance K [VStr (substitute (template K) req)] req).
  exists (Instance K [VStr (substitute (template K) req)] fields).
  split; [by apply init_ok|].
  split_and!; try done.
  - rewrite init_render by done. rewrite Hr. by rewrite render_all.
  - rewrite init_render by done. rewrite Hr'. by rewrite render_all.
Qed.

Lemma C8_extra_fields_witness :
  ∃ e0 e, __init__ RangeError count_fields = Return e0
          ∧ __init__ RangeError (<["type_name" := VStr "integer"]> count_fields)
            = Return e
          ∧ kwargs e = <["type_name" := VStr "integer"]> count_fields
          ∧ (∀ n v,
               (<["type_name" := VStr "integer"]> count_fields) !! n = Some v →
               field_access e n = Some v)
          ∧ __str__ e = __str__ e0
          ∧ __init__ RangeError
              (filter (λ kv, kv.1 ∈ placeholders RangeError)
                 (<["type_name" := VStr "integer"]> count_fields))
            = Return (set_kwargs e0
                (filter (λ kv, kv.1 ∈ placeholders RangeError)
                   (<["type_name" := VStr "integer"]> count_fields))).
Proof.
  apply (C8_extra_fields RangeError count_fields
           (<["type_name" := VStr "integer"]> count_fields)).
  - intros n Hn. apply elem_of_dom.
    apply (elem_of_list_to_set (C := gset string)) in Hn.
    revert Hn. vm_compute. exact (λ H, H).
  - apply insert_subseteq. vm_compute. reflexivity.
  - vm_compute. reflexivity.
Defined.

(** C8 as stated fails: the range kind with its four fields and one more,
    named [self], is not constructed; the call raises [TypeError]. *)
Lemma C8_extra_field_named_self :
  Forall (λ n, is_Some (count_fields !! n)) (placeholders RangeError)
  ∧ count_fields ⊆ <["self" := VInt 1]> count_fields
  ∧ count_fields ≠ <["self" := VInt 1]> count_fields
  ∧ lift __str__ (__init__ RangeError count_fields)
    = Return "Value out of range for param Count: 1 <= 50 <= 10"
  ∧ __init__ RangeError (<["self" := VInt 1]> count_fields) = Raise TypeError.
Proof.
  split_and!.
  - apply Forall_forall. intros n Hn. apply elem_of_dom.
    apply (elem_of_list_to_set (C := gset string)) in Hn.
    revert Hn. vm_compute. exact (λ H, H).
  - apply insert_subseteq. vm_compute. reflexivity.
  - intros H. apply (f_equal (λ m : gmap string value, m !! "self")) in H.
    vm_compute in H. discriminate.
  - vm_compute. reflexivity.
  - vm_compute. reflexivity.
Qed.

(** C9, as amended.  The base class and the no-credentials kind have a
    template without a placeholder: every field map without a field named
    [self], empty or not, constructs them, the message is the template
    itself, and the map is retained. *)
Theorem C9_no_placeholder_kinds (fields : gmap string value) :
  fields !! "self" = None →
  (__init__ NoCredentialsError fields
   = Return (Instance NoCredentialsError
               [VStr "Unable to locate credentials"] fields)
   ∧ lift __str__ (__init__ NoCredentialsError fields)
     = Return "Unable to locate credentials")
  ∧ (__init__ BotoCoreError fields
     = Return (Instance BotoCoreError
                 [VStr "An unspecified error occured"] fields)
     ∧ lift __str__ (__init__ BotoCoreError fields)
       = Return "An unspecified error occured")
  ∧ placeholders NoCredentialsError = []
  ∧ placeholders BotoCoreError = [].
Proof.
  intros Hs.
  assert (∀ K, placeholders K = [] →
            __init__ K fields
            = Return (Instance K [VStr (substitute (template K) ∅)] fields))
    as Hgen.
  { intros K HK. rewrite init_render by done.
    rewrite (render_agree fields ∅).
    - rewrite render_all; [done|].
      intros n Hn. fold (placeholders K) in Hn. rewrite HK in Hn.
      by apply elem_of_nil in Hn.
    - intros n Hn. fold (placeholders K) in Hn. rewrite HK in Hn.
      by apply elem_of_nil in Hn. }
  split_and!; try (vm_compute; reflexivity).
  - by rewrite (Hgen NoCredentialsError).
  - by rewrite (Hgen NoCredentialsError).
  - by rewrite (Hgen BotoCoreError).
  - by rewrite (Hgen BotoCoreError).
Qed.

Lemma C9_no_placeholder_kinds_witness :
  lift __str__ (__init__ NoCredentialsError region_fields)
  = Return "Unable to locate credentials".
Proof.
  refine (proj2 (proj1 (C9_no_placeholder_kinds region_fields _))).
  vm_compute. reflexivity.
Defined.

(** C9 as stated fails: with a field named [self] neither kind is
    constructed; the call raises [TypeError]. *)
Lemma C9_field_named_self :
  __init__ NoCredentialsError self_fields = Raise TypeError
  ∧ __init__ BotoCoreError self_fields = Raise TypeError.
Proof. split; vm_compute; reflexivity. Qed.

(** C10.  Substitution is a single pass over the template.  The message of a
    constructed instance is the template with each placeholder replaced by
    the string form of its field, and that string form is in the message as
    it is: text of the shape [{other}] inside it stays, whether or not
    [other] is a supplied field.  For the range kind with [param] set to the
    text [{value}] and [value=50] the message keeps [{value}], where a second
    pass would have put [50]. *)
Theorem C10_single_pass (K : cls) (fields : gmap string value)
    (e : instance cls) (n : string) (v : value) :
  __init__ K fields = Return e →
  n ∈ placeholders K →
  fields !! n = Some v →
  __str__ e = concat (map (subst_piece fields) (tokens (template K)))
  ∧ contains (str v) (__str__ e) = true
  ∧ (∀ pre other post,
       str v = pre +:+ placeholder other +:+ post →
       contains (placeholder other) (__str__ e) = true)
  ∧ lift __str__ (__init__ RangeError nested_fields)
    = Return "Value out of range for param {value}: 1 <= 50 <= 10"
  ∧ format "Value out of range for param {value}: 1 <= 50 <= 10" nested_fields
    = Return "Value out of range for param 50: 1 <= 50 <= 10".
Proof.
  intros He Hn Hv. apply init_return in He as ->.
  assert (contains (str v)
            (concat (map (subst_piece fields) (tokens (template K)))) = true)
    as Hc.
  { apply contains_concat. by apply subst_piece_elem with n. }
  split_and!; try done; try (vm_compute; reflexivity).
  intros pre other post Hs. apply contains_trans with (str v); [|done].
  apply contains_spec. by exists pre, post.
Qed.

Lemma C10_single_pass_witness :
  contains (str (VStr "{value}"))
    (__str__ (Instance RangeError
       [VStr "Value out of range for param {value}: 1 <= 50 <= 10"]
       nested_fields)) = true.
Proof.
  refine (proj1 (proj2 (C10_single_pass RangeError nested_fields
    (Instance RangeError
       [VStr "Value out of range for param {value}: 1 <= 50 <= 10"]
       nested_fields) "param" (VStr "{value}") _ _ _))).
  - vm_compute. reflexivity.
  - vm_compute. repeat constructor.
  - vm_compute. reflexivity.
Defined.

(** * Further properties of the module *)

(** ** Helper lemmas *)

Lemma render_first_missing kw ps :
  render kw ps =
    match first_missing kw (refs ps) with
    | Some n => Raise (KeyError n)
    | None => Return (concat (map (subst_piece kw) ps))
    end.
Proof.
  induction ps as [|[c|n] ps IH]; simpl.
  - done.
  - rewrite IH. by destruct (first_missing kw (refs ps)).
  - unfold first_missing. simpl. destruct (kw !! n) eqn:E.
    + rewrite bool_decide_eq_false_2 by done. fold (first_missing kw (refs ps)).
      rewrite IH. by destruct (first_missing kw (refs ps)).
    + by rewrite bool_decide_eq_true_2.
Qed.

Lemma all_classes_complete c : c ∈ all_classes.
Proof. destruct c; unfold all_classes; repeat constructor. Qed.

Lemma tokens_literal_prefix s :
  ∃ rest, tokens_from None s = (lits (literal_prefix s) ++ rest)%list.
Proof.
  induction s as [|c s [rest IH]]; simpl.
  - by exists [].
  - case_decide.
    + by eexists.
    + exists rest. simpl. by rewrite IH.
Qed.

Lemma concat_lits kw p rest :
  concat (map (subst_piece kw) (lits p ++ rest)%list)
  = p +:+ concat (map (subst_piece kw) rest).
Proof. induction p as [|c p IH]; [done|]. simpl. by rewrite IH. Qed.

Lemma app_nil_r (a : string) : a +:+ EmptyString = a.
Proof. induction a as [|c a IH]; [done|]. by rewrite app_cons, IH. Qed.

Lemma app_length (a b : string) :
  String.length (a +:+ b) = (String.length a + String.length b)%nat.
Proof. induction a as [|c a IH]; [done|]. rewrite app_cons. simpl. by rewrite IH. Qed.

Lemma app_inj_r (a b c : string) : a +:+ c = b +:+ c → a = b.
Proof.
  revert b. induction a as [|x a IH]; intros [|y b] H.
  - done.
  - apply (f_equal String.length) in H. rewrite !app_length in H.
    simpl in H. lia.
  - apply (f_equal String.length) in H. rewrite !app_length in H.
    simpl in H. lia.
  - rewrite !app_cons in H. injection H as -> H. f_equal. by apply IH.
Qed.

Lemma subst_no_refs kw1 kw2 ps :
  refs ps = [] → map (subst_piece kw1) ps = map (subst_piece kw2) ps.
Proof.
  induction ps as [|[c|n] ps IH]; simpl; intros H; [done| |done].
  by rewrite IH.
Qed.

Lemma single_ref_inj kw1 kw2 ps n v1 v2 :
  refs ps = [n] → kw1 !! n = Some v1 → kw2 !! n = Some v2 →
  concat (map (subst_piece kw1) ps) = concat (map (subst_piece kw2) ps) →
  str v1 = str v2.
Proof.
  intros Hr H1 H2. induction ps as [|[c|m] ps IH]; simpl in *; [done|..].
  - rewrite !app_cons. intros [= H]. by apply IH.
  - injection Hr as -> Hr. rewrite H1, H2.
    rewrite (subst_no_refs kw1 kw2 ps Hr). apply app_inj_r.
Qed.

(** ** Construction, for every class and every keyword dictionary *)

(** X1.  For a keyword dictionary whose values are all text, construction
    has three outcomes and no other.  With a key named [self] the call
    raises [TypeError].  Otherwise, if every name the template of the class
    refers to is a key, it returns the instance of that class with the
    rendered message as its single argument and the dictionary as [kwargs];
    and if not, it raises [KeyError] for the leftmost placeholder of the
    template that is not a key. *)
Theorem X1_init_outcome (K : cls) (fields : gmap string value) :
  text_valued fields →
  __init__ K fields =
    match fields !! "self" with
    | Some _ => Raise TypeError
    | None =>
        match first_missing fields (placeholders K) with
        | Some n => Raise (KeyError n)
        | None =>
            Return (Instance K [VStr (substitute (template K) fields)] fields)
        end
    end.
Proof.
  intros _. destruct (fields !! "self") eqn:Hs.
  - apply init_self. by rewrite Hs.
  - rewrite init_render by done. rewrite render_first_missing.
    fold (placeholders K).
    by destruct (first_missing fields (placeholders K)).
Qed.

Lemma X1_init_outcome_witness :
  __init__ WaiterError (delete "name" waiter_fields_1)
  = match delete "name" waiter_fields_1 !! "self" with
    | Some _ => Raise TypeError
    | None =>
        match first_missing (delete "name" waiter_fields_1)
                (placeholders WaiterError) with
        | Some n => Raise (KeyError n)
        | None =>
            Return (Instance WaiterError
                      [VStr (substitute (template WaiterError)
                               (delete "name" waiter_fields_1))]
                      (delete "name" waiter_fields_1))
        end
    end.
Proof.
  apply (X1_init_outcome WaiterError (delete "name" waiter_fields_1)).
  apply map_Forall_delete, map_Forall_insert_2; [by eexists|].
  apply map_Forall_insert_2; [by eexists|]. apply map_Forall_empty.
Defined.

(** X4.  The message of a constructed instance begins with the text its
    template has before the first placeholder. *)
Theorem X4_message_prefix (K : cls) (fields : gmap string value)
    (e : instance cls) :
  __init__ K fields = Return e →
  starts_with (literal_prefix (template K)) (__str__ e) = true.
Proof.
  intros He. apply init_return in He as ->.
  change (starts_with (literal_prefix (template K))
            (substitute (template K) fields) = true).
  unfold substitute, tokens.
  destruct (tokens_literal_prefix (template K)) as [rest ->].
  rewrite concat_lits. apply starts_with_app.
Qed.

Lemma X4_message_prefix_witness :
  starts_with (literal_prefix (template RangeError))
    (__str__ (Instance RangeError
       [VStr "Value out of range for param Count: 1 <= 50 <= 10"]
       count_fields)) = true.
Proof.
  refine (X4_message_prefix RangeError count_fields _ _).
  vm_compute. reflexivity.
Defined.

(** X5.  For a kind whose template has a single placeholder, the message
    determines the string form of that field: two instances of the kind with
    the same message have fields with the same string form. *)
Theorem X5_single_field_message (K : cls) (n : string)
    (fields1 fields2 : gmap string value) (e1 e2 : instance cls)
    (v1 v2 : value) :
  placeholders K = [n] →
  __init__ K fields1 = Return e1 →
  __init__ K fields2 = Return e2 →
  fields1 !! n = Some v1 →
  fields2 !! n = Some v2 →
  __str__ e1 = __str__ e2 →
  str v1 = str v2.
Proof.
  intros HK He1 He2 H1 H2. apply init_return in He1 as ->.
  apply init_return in He2 as ->.
  change (substitute (template K) fields1 = substitute (template K) fields2
          → str v1 = str v2).
  by apply single_ref_inj with n.
Qed.

Lemma X5_single_field_message_witness :
  str (VStr "s3") = str (VStr "s3").
Proof.
  refine (X5_single_field_message DataNotFoundError "data_path"
    (<["data_path" := VStr "s3"]> ∅)
    (<["data_path" := VStr "s3"]> (<["extra" := VInt 1]> ∅))
    (Instance DataNotFoundError [VStr "Unable to load data for: s3"]
       (<["data_path" := VStr "s3"]> ∅))
    (Instance DataNotFoundError [VStr "Unable to load data for: s3"]
       (<["data_path" := VStr "s3"]> (<["extra" := VInt 1]> ∅)))
    (VStr "s3") (VStr "s3") _ _ _ _ _ _); vm_compute; reflexivity.
Defined.

(** X6.  With more than one placeholder the message does not determine the
    fields: two waiter errors whose [name] and [reason] differ have the same
    message. *)
Theorem X6_message_ambiguous :
  lift __str__ (__init__ WaiterError waiter_fields_1)
  = lift __str__ (__init__ WaiterError waiter_fields_2)
  ∧ lift __str__ (__init__ WaiterError waiter_fields_1)
    = Return "Waiter a failed: b failed: c"
  ∧ waiter_fields_1 !! "name" ≠ waiter_fields_2 !! "name"
  ∧ waiter_fields_1 !! "reason" ≠ waiter_fields_2 !! "reason".
Proof. split_and!; vm_compute; (reflexivity || discriminate). Qed.

(** X7.  For a field map the call accepts (no field named [self]), the
    missing-parameters kind renders [object_name] by its [str], so a text is
    put in as it is, without quotes, and the list of missing names by the
    [str] of the list, each name in its [repr]. *)
Theorem X7_missing_parameters_message (fields : gmap string value)
    (object_name : string) (missing : list string) :
  fields !! "self" = None →
  fields !! "object_name" = Some (VStr object_name) →
  fields !! "missing" = Some (VList (map VStr missing)) →
  lift __str__ (__init__ MissingParametersError fields)
  = Return ("The following required parameters are missing for "
            +:+ object_name +:+ ": [" +:+ join ", " (map repr_str missing)
            +:+ "]").
Proof.
  intros Hs Ho Hm. rewrite init_render by done.
  let ps := eval vm_compute in (tokens (template MissingParametersError)) in
  change (tokens (template MissingParametersError)) with ps.
  cbn [render]. rewrite Ho, Hm. cbn [lift bind str repr].
  rewrite map_map. cbn [repr]. rewrite app_nil_r. reflexivity.
Qed.

Lemma X7_missing_parameters_message_witness :
  lift __str__ (__init__ MissingParametersError missing_fields)
  = Return ("The following required parameters are missing for "
            +:+ "PutObject" +:+ ": [" +:+
            join ", " (map repr_str ["Bucket"; "Key"]) +:+ "]").
Proof.
  apply (X7_missing_parameters_message missing_fields "PutObject"
           ["Bucket"; "Key"]); vm_compute; reflexivity.
Defined.

(** ** The hierarchy *)

(** X8.  Every instance this module constructs is an instance of
    [BotoCoreError], whatever its class. *)
Theorem X8_caught_as_base (K : cls) (fields : gmap string value)
    (e : instance cls) :
  __init__ K fields = Return e →
  isinstance e BotoCoreError = true ∧ isinstance e K = true.
Proof.
  intros He. apply init_return in He as ->. unfold isinstance. simpl.
  by destruct K.
Qed.

Lemma X8_caught_as_base_witness :
  isinstance (Instance NoCredentialsError
    [VStr "Unable to locate credentials"] ∅) BotoCoreError = true
  ∧ isinstance (Instance NoCredentialsError
      [VStr "Unable to locate credentials"] ∅) NoCredentialsError = true.
Proof.
  refine (X8_caught_as_base NoCredentialsError ∅ _ _).
  vm_compute. reflexivity.
Defined.

Lemma issubclass_cases (K D : cls) :
  issubclass K D = true ↔
  D = K ∨ D = BotoCoreError ∨ (D = ValidationError ∧ K ∈ narrow_validation).
Proof.
  split.
  - destruct K, D; intros H; try (by left); try (by right; left);
      try (vm_compute in H; discriminate);
      right; right; (split; [done|]); unfold narrow_validation;
      repeat constructor.
  - intros [-> | [-> | [-> HK]]].
    + by destruct K.
    + by destruct K.
    + unfold narrow_validation in HK.
      repeat (apply elem_of_cons in HK as [-> | HK]; [done|]).
      by apply elem_of_nil in HK.
Qed.

(** X9.  A class is a subclass of a class of the module exactly if that is
    the class itself, [BotoCoreError], or [ValidationError] for one of the
    three kinds below it.  So [except ValidationError] catches the four
    validation classes and no other, and a kind without subclasses catches
    only itself. *)
Theorem X9_issubclass_cases (K D : cls) :
  issubclass K D = true ↔
  D = K ∨ D = BotoCoreError ∨ (D = ValidationError ∧ K ∈ narrow_validation).
Proof. apply issubclass_cases. Qed.

(** X10.  The subclass relation of the module is a partial order. *)
Theorem X10_issubclass_partial_order :
  PartialOrder (λ c d : cls, issubclass c d = true).
Proof.
  split; [split|].
  - intros c. by destruct c.
  - intros a b c Hab Hbc. apply issubclass_cases in Hab, Hbc.
    apply issubclass_cases.
    destruct Hbc as [-> | [-> | [-> Hb]]]; [done|by right; left|].
    destruct Hab as [-> | [-> | [-> Ha]]].
    + by right; right.
    + unfold narrow_validation in Hb.
      repeat (apply elem_of_cons in Hb as [Hb | Hb]; [discriminate|]).
      by apply elem_of_nil in Hb.
    + unfold narrow_validation in Hb.
      repeat (apply elem_of_cons in Hb as [Hb | Hb]; [discriminate|]).
      by apply elem_of_nil in Hb.
  - intros a b Hab Hba. destruct a, b; try done;
      vm_compute in Hab; vm_compute in Hba; discriminate.
Qed.

(** ** The templates *)

(** X11.  Every class of the module assigns its own [fmt], so none renders
    with the template of its base, and no two classes have the same
    template. *)
Theorem X11_own_templates :
  (∀ K, fmt K = class_fmt K) ∧ Inj (=) (=) template.
Proof.
  split; [by intros []|].
  intros a b H. destruct a, b; try reflexivity; vm_compute in H; discriminate.
Qed.

(** X12.  In every template each placeholder occurs once, and its name can
    be written as a keyword of a call: it is an identifier, no reserved word
    and not [self]. *)
Theorem X12_placeholder_names (K : cls) :
  NoDup (placeholders K)
  ∧ Forall (λ n, keyword_name n = true) (placeholders K).
Proof.
  split.
  - apply (bool_decide_unpack _). by destruct K; vm_compute.
  - apply Forall_forall. intros n Hn.
    assert (forallb keyword_name (placeholders K) = true) as Hall.
    { destruct K; vm_compute; reflexivity. }
    rewrite forallb_forall in Hall. apply Hall. by apply list_elem_of_In.
Qed.
